(** * DataFileMeta: manifest-entry record, schema descriptor and path derivation

    Shallow embedding of
    [paimon-python/pypaimon/manifest/schema/data_file_meta.py]:
    the [DataFileMeta] dataclass, its method [set_file_path] and the
    Avro schema dictionary [DATA_FILE_META_SCHEMA].

    Python strings are [string], Python integers are [Z], [Optional[T]] is
    [option T], and a [dict] iterated by [items()] is the list of its
    (key, value) pairs in iteration order. *)

From Stdlib Require Import String Ascii List ZArith Lia Bool.
From Stdlib Require Import Decimal DecimalString DecimalPos DecimalZ.
Import ListNotations.

Local Open Scope list_scope.
Local Open Scope string_scope.

Set Warnings "-register-all".


(* ================================================================== *)
(** ** Python builtins used by the module *)

Module Py.

(** Values that can sit in a partition row; [str] renders them. *)
Inductive value : Type :=
| VStr (s : string)
| VInt (z : Z)
| VBool (b : bool)
| VNone.

(** [str(i)] for an [int]: decimal digits, with a leading [-] below zero. *)
Definition str_int (z : Z) : string :=
  NilZero.string_of_int (Z.to_int z).

(** [str(v)]. *)
Definition str (v : value) : string :=
  match v with
  | VStr s => s
  | VInt z => str_int z
  | VBool true => "True"
  | VBool false => "False"
  | VNone => "None"
  end.

(** [sep.join(xs)]. *)
Fixpoint join (sep : string) (xs : list string) : string :=
  match xs with
  | [] => ""
  | [x] => x
  | x :: rest => x ++ sep ++ join sep rest
  end.

(** [s.split(c)] for a one-character separator: always at least one
    piece, pieces may be empty. *)
Fixpoint split (c : ascii) (s : string) : list string :=
  match s with
  | EmptyString => [""]
  | String a rest =>
      if Ascii.eqb a c then "" :: split c rest
      else match split c rest with
           | [] => [String a ""]
           | piece :: pieces => String a piece :: pieces
           end
  end.

(** [c in s] for a character [c]. *)
Fixpoint contains (c : ascii) (s : string) : bool :=
  match s with
  | EmptyString => false
  | String a rest => Ascii.eqb a c || contains c rest
  end.

(** [s.startswith(c)]. *)
Definition startswith (c : ascii) (s : string) : bool :=
  match s with
  | String a _ => Ascii.eqb a c
  | EmptyString => false
  end.

End Py.

(* ================================================================== *)
(** ** pathlib: pure POSIX paths

    A path object is its anchor ([""], ["/"] or ["//"]) and the list of its
    components; parsing drops empty and ["."] components. *)

Module Pathlib.

Record Path : Type := mkPath {
  root : string;
  tail : list string
}.

Definition sep : ascii := "/"%char.

(** [posixpath.splitroot]: one leading slash, or exactly two, is the
    root; three or more collapse to one. *)
Definition splitroot (p : string) : string * string :=
  match p with
  | String a p1 =>
      if Ascii.eqb a sep then
        match p1 with
        | String b p2 =>
            if Ascii.eqb b sep then
              if Py.startswith sep p2 then ("/", p1) else ("//", p2)
            else ("/", p1)
        | EmptyString => ("/", p1)
        end
      else ("", p)
  | EmptyString => ("", p)
  end.

Definition keep_part (x : string) : bool :=
  negb (String.eqb x "") && negb (String.eqb x ".").

(** [PurePath._parse_path]. *)
Definition parse_path (p : string) : Path :=
  let '(r, rel) := splitroot p in
  mkPath r (filter keep_part (Py.split sep rel)).

(** [Path(s)]. *)
Definition of_string (s : string) : Path := parse_path s.

(** [path / key] for a string [key] ([posixpath.join] then a parse): an
    absolute key replaces the path, a relative one contributes its
    components. *)
Definition truediv (p : Path) (key : string) : Path :=
  if Py.startswith sep key then parse_path key
  else mkPath (root p) (tail p ++ tail (parse_path key)).

(** [str(path)]. *)
Definition to_str (p : Path) : string :=
  match root p, tail p with
  | EmptyString, [] => "."
  | r, t => r ++ Py.join "/" t
  end.

(** A key that parsing leaves as it is: relative, and none of its
    slash-separated pieces is empty or ["."] (so no leading, trailing or
    doubled slash). *)
Definition normal_segment (key : string) : bool :=
  forallb keep_part (Py.split sep key).

(** The path has at least one component: it is neither the bare root
    nor the empty path. *)
Definition has_components (p : Path) : bool :=
  match tail p with
  | [] => false
  | _ :: _ => true
  end.

End Pathlib.

Module PathNotation.
Infix "//" := Pathlib.truediv (at level 40, left associativity).
End PathNotation.
Import PathNotation.

(* ================================================================== *)
(** ** The record *)

(** Modelled from the spec: the class [BinaryRow] of
    [pypaimon.table.row.binary_row], which this module imports.  The spec
    describes a partition value as an ordered mapping from partition-column
    name to value; [to_dict] returns that mapping, and the list holds its
    items in iteration order. *)
Record BinaryRow : Type := mkBinaryRow {
  to_dict : list (string * Py.value)
}.

(** [datetime.datetime], kept as its epoch timestamp. *)
Definition datetime : Type := Z.

(** [bytes]. *)
Definition bytes : Type := list Byte.byte.

(** [Dict[str, Any]]. *)
Definition stats_dict : Type := list (string * Py.value).

(** The [@dataclass DataFileMeta]: twelve fields without a default, six
    optional ones defaulting to [None], and [file_path], also [None] by
    default. *)
Record DataFileMeta : Type := mkDataFileMeta {
  file_name : string;
  file_size : Z;
  row_count : Z;
  min_key : option BinaryRow;
  max_key : option BinaryRow;
  key_stats : option stats_dict;
  value_stats : option stats_dict;
  min_sequence_number : Z;
  max_sequence_number : Z;
  schema_id : Z;
  level : Z;
  extra_files : option (list string);

  creation_time : option datetime;
  delete_row_count : option Z;
  embedded_index : option bytes;
  file_source : option string;
  value_stats_cols : option (list string);
  external_path : option string;

  file_path : option string
}.

(** The generated [__init__] called with the twelve required arguments
    only: every defaulted field takes its default. *)
Definition DataFileMeta_init
    (file_name : string) (file_size row_count : Z)
    (min_key max_key : option BinaryRow)
    (key_stats value_stats : option stats_dict)
    (min_sequence_number max_sequence_number schema_id level : Z)
    (extra_files : option (list string)) : DataFileMeta :=
  mkDataFileMeta file_name file_size row_count min_key max_key
    key_stats value_stats min_sequence_number max_sequence_number
    schema_id level extra_files
    None None None None None None
    None.

(** The assignment [self.file_path = v]. *)
Definition assign_file_path (self : DataFileMeta) (v : string) : DataFileMeta :=
  mkDataFileMeta
    (file_name self) (file_size self) (row_count self)
    (min_key self) (max_key self) (key_stats self) (value_stats self)
    (min_sequence_number self) (max_sequence_number self)
    (schema_id self) (level self) (extra_files self)
    (creation_time self) (delete_row_count self) (embedded_index self)
    (file_source self) (value_stats_cols self) (external_path self)
    (Some v).

(** The path segment of one partition column:
    [field_name + "=" + str(field_value)]. *)
Definition partition_segment (item : string * Py.value) : string :=
  fst item ++ "=" ++ Py.str (snd item).

(** The bucket segment: ["bucket-" + str(bucket)]. *)
Definition bucket_segment (bucket : Z) : string :=
  "bucket-" ++ Py.str_int bucket.

(** The path object [set_file_path] has built when it reaches its last
    line: the [for] loop over [partition_dict.items()] is a left fold. *)
Definition build_path (file_name : string) (table_path : Pathlib.Path)
    (partition : BinaryRow) (bucket : Z) : Pathlib.Path :=
  let path_builder := table_path in
  let partition_dict := to_dict partition in
  let path_builder :=
    fold_left (fun pb item => pb // partition_segment item)
              partition_dict path_builder in
  path_builder // bucket_segment bucket // file_name.

(** [DataFileMeta.set_file_path]: the record after the call. *)
Definition set_file_path (self : DataFileMeta) (table_path : Pathlib.Path)
    (partition : BinaryRow) (bucket : Z) : DataFileMeta :=
  assign_file_path self
    (Pathlib.to_str (build_path (file_name self) table_path partition bucket)).

(* ================================================================== *)
(** ** The schema descriptor *)

Module Avro.

(** The schema types that occur in the descriptor: a name such as
    ["long"], an array [{"type": "array", "items": t}], or a union
    written as a Python list. *)
Inductive type : Type :=
| TNull
| TString
| TLong
| TInt
| TBytes
| TArray (items : type)
| TUnion (branches : list type).

(** The value of a ["default"] key; the descriptor only uses [None]. *)
Inductive default_value : Type :=
| DNone.

(** One entry of ["fields"]: [default] is [None] when the dictionary has
    no ["default"] key. *)
Record field : Type := mkField {
  name : string;
  ftype : type;
  default : option default_value
}.

Record record_schema : Type := mkRecord {
  rtype : string;
  rname : string;
  fields : list field
}.

Fixpoint type_eqb (a b : type) {struct a} : bool :=
  match a, b with
  | TNull, TNull | TString, TString | TLong, TLong
  | TInt, TInt | TBytes, TBytes => true
  | TArray x, TArray y => type_eqb x y
  | TUnion xs, TUnion ys =>
      (fix all2 (xs : list type) (ys : list type) : bool :=
         match xs, ys with
         | [], [] => true
         | x :: xs', y :: ys' => type_eqb x y && all2 xs' ys'
         | _, _ => false
         end) xs ys
  | _, _ => false
  end.

(** A field is nullable when its type is a union with a ["null"] branch. *)
Definition nullable (f : field) : bool :=
  match ftype f with
  | TUnion bs => existsb (type_eqb TNull) bs
  | _ => false
  end.

(** Required: not nullable and without a default. *)
Definition required (f : field) : bool :=
  negb (nullable f) &&
  match default f with None => true | Some _ => false end.

(** Optional: nullable with the explicit default [None]. *)
Definition optional (f : field) : bool :=
  nullable f &&
  match default f with Some DNone => true | None => false end.

End Avro.

Import Avro.

Definition DATA_FILE_META_SCHEMA : record_schema :=
  mkRecord "record" "DataFileMeta" [
    mkField "_FILE_NAME" TString None;
    mkField "_FILE_SIZE" TLong None;
    mkField "_ROW_COUNT" TLong None;
    mkField "_MIN_KEY" TBytes None;
    mkField "_MAX_KEY" TBytes None;
    mkField "_KEY_STATS" TLong None;
    mkField "_VALUE_STATS" TLong None;
    mkField "_MIN_SEQUENCE_NUMBER" TLong None;
    mkField "_MAX_SEQUENCE_NUMBER" TLong None;
    mkField "_SCHEMA_ID" TLong None;
    mkField "_LEVEL" TInt None;
    mkField "_EXTRA_FILES" (TArray TString) None;
    mkField "_CREATION_TIME" (TUnion [TNull; TLong]) (Some DNone);
    mkField "_DELETE_ROW_COUNT" (TUnion [TNull; TLong]) (Some DNone);
    mkField "_EMBEDDED_FILE_INDEX" (TUnion [TNull; TBytes]) (Some DNone);
    mkField "_FILE_SOURCE" (TUnion [TNull; TInt]) (Some DNone);
    mkField "_VALUE_STATS_COLS" (TUnion [TNull; TArray TString]) (Some DNone);
    mkField "_EXTERNAL_PATH" (TUnion [TNull; TString]) (Some DNone)
  ].

(** A record with the given file name and every other required field at
    zero or [None]. *)
Definition file_named (fname : string) : DataFileMeta :=
  DataFileMeta_init fname 0 0 None None None None 0 0 0 0 None.

(* ================================================================== *)
(** ** Properties of a record *)

Definition is_some {A : Type} (o : option A) : bool :=
  match o with Some _ => true | None => false end.

(** [min_key] and [max_key] are both present or both absent. *)
Definition keys_paired (m : DataFileMeta) : bool :=
  Bool.eqb (is_some (min_key m)) (is_some (max_key m)).

(* ================================================================== *)
(** ** The path format of the interface description

    The specification writes the resolved path as
    [<root>/<col1>=<val1>/.../bucket-<bucket>/<file_name>]: plain string
    formatting, one slash before every segment. *)

Definition spec_path (table_root : string) (partition : list (string * Py.value))
    (bucket : Z) (file_name : string) : string :=
  fold_left (fun (acc : string) item =>
               (acc ++ "/" ++ fst item ++ "=" ++ Py.str (snd item))%string)
            partition table_root
  ++ "/" ++ "bucket-" ++ Py.str_int bucket
  ++ "/" ++ file_name.

(* ================================================================== *)
(** ** The durable record layout of the interface description *)

Module Layout.

Inductive kind : Type :=
| KString
| KInteger64
| KInteger32
| KByteArray
| KOpaque64
| KArrayOfString.

(** One row of the table: field, type, optional, default (a default is
    either missing or "absent"). *)
Record row : Type := mkRow {
  label : string;
  rkind : kind;
  is_optional : bool;
  default_absent : bool
}.

Definition table : list row := [
  mkRow "file name" KString false false;
  mkRow "file size" KInteger64 false false;
  mkRow "row count" KInteger64 false false;
  mkRow "min key" KByteArray false false;
  mkRow "max key" KByteArray false false;
  mkRow "key stats" KOpaque64 false false;
  mkRow "value stats" KOpaque64 false false;
  mkRow "min sequence number" KInteger64 false false;
  mkRow "max sequence number" KInteger64 false false;
  mkRow "schema id" KInteger64 false false;
  mkRow "level" KInteger32 false false;
  mkRow "extra files" KArrayOfString false false;
  mkRow "creation time" KInteger64 true true;
  mkRow "delete row count" KInteger64 true true;
  mkRow "embedded file index" KByteArray true true;
  mkRow "file source" KInteger32 true true;
  mkRow "value stats columns" KArrayOfString true true;
  mkRow "external path" KString true true
].

(** The schema type that carries a kind. *)
Definition base_type (k : kind) : Avro.type :=
  match k with
  | KString => TString
  | KInteger64 | KOpaque64 => TLong
  | KInteger32 => TInt
  | KByteArray => TBytes
  | KArrayOfString => TArray TString
  end.

(** The schema type and default a row stands for. *)
Definition shape (r : row) : Avro.type * option Avro.default_value :=
  (if is_optional r then TUnion [TNull; base_type (rkind r)]
   else base_type (rkind r),
   if default_absent r then Some DNone else None).

End Layout.

(** Lower case of an ASCII letter. *)
Definition lower (c : ascii) : ascii :=
  let n := nat_of_ascii c in
  if (65 <=? n)%nat && (n <=? 90)%nat then ascii_of_nat (n + 32) else c.

Fixpoint lower_string (s : string) : string :=
  match s with
  | EmptyString => EmptyString
  | String c rest => String (lower c) (lower_string rest)
  end.

(** The attribute a durable field name spells, by the descriptor's naming
    scheme: the leading underscore dropped, letters in lower case. *)
Definition attribute_of (durable : string) : string :=
  match durable with
  | String "_" rest => lower_string rest
  | _ => lower_string durable
  end.

(* ================================================================== *)
(** ** Decoding under the descriptor *)

Module Decode.

(** Decoded values. *)
Inductive datum : Type :=
| DNull
| DStr (s : string)
| DInteger (z : Z)
| DBytes (b : bytes)
| DArray (xs : list datum).

Inductive error : Type :=
| MissingField (field_name : string)
| TypeMismatch (field_name : string).

(** A value fits a schema type; [long] and [int] are 64 and 32 bits. *)
Fixpoint conforms (t : Avro.type) (v : datum) {struct t} : bool :=
  match t, v with
  | TNull, DNull => true
  | TString, DStr _ => true
  | TLong, DInteger z => (- 2 ^ 63 <=? z)%Z && (z <? 2 ^ 63)%Z
  | TInt, DInteger z => (- 2 ^ 31 <=? z)%Z && (z <? 2 ^ 31)%Z
  | TBytes, DBytes _ => true
  | TArray items, DArray xs => forallb (conforms items) xs
  | TUnion branches, _ => existsb (fun b => conforms b v) branches
  | _, _ => false
  end.

(** A record as encoded by a writer: the values of the writer's fields,
    by field name, in the writer's field order. *)
Definition encoded : Type := list (string * datum).

Fixpoint lookup (key : string) (r : encoded) : option datum :=
  match r with
  | [] => None
  | (k, v) :: rest => if String.eqb k key then Some v else lookup key rest
  end.


Definition datum_of_default (d : Avro.default_value) : datum :=
  match d with DNone => DNull end.

(** Modelled from the spec: the decoder of one field, which lives in the
    manifest reader and its record engine, outside this module.  A field
    the record carries is taken when it fits the field's type; a field
    the record lacks resolves to the descriptor's default when it has
    one and is a decode error otherwise. *)
Definition decode_field (r : encoded) (f : Avro.field)
    : error + (string * datum) :=
  match lookup (name f) r with
  | Some v =>
      if conforms (ftype f) v then inr (name f, v)
      else inl (TypeMismatch (name f))
  | None =>
      match default f with
      | Some d => inr (name f, datum_of_default d)
      | None => inl (MissingField (name f))
      end
  end.

Fixpoint decode_fields (r : encoded) (fs : list Avro.field)
    : error + encoded :=
  match fs with
  | [] => inr []
  | f :: fs' =>
      match decode_field r f with
      | inl e => inl e
      | inr kv =>
          match decode_fields r fs' with
          | inl e => inl e
          | inr rest => inr (kv :: rest)
          end
      end
  end.

(** Modelled from the spec: decoding a record under a descriptor, field
    by field in the descriptor's order; the first failing field is the
    decode error. *)
Definition decode (schema : Avro.record_schema) (r : encoded)
    : error + encoded :=
  decode_fields r (fields schema).

End Decode.

(** The original format: the descriptor's fields before the six optional
    trailing ones. *)
Definition legacy_fields : list Avro.field :=
  firstn 12 (fields DATA_FILE_META_SCHEMA).

Definition trailing_fields : list Avro.field :=
  skipn 12 (fields DATA_FILE_META_SCHEMA).

(** A record written in the original format. *)
Definition legacy_record : Decode.encoded := [
  ("_FILE_NAME", Decode.DStr "data-0001.parquet");
  ("_FILE_SIZE", Decode.DInteger 1024);
  ("_ROW_COUNT", Decode.DInteger 10);
  ("_MIN_KEY", Decode.DBytes []);
  ("_MAX_KEY", Decode.DBytes []);
  ("_KEY_STATS", Decode.DInteger 0);
  ("_VALUE_STATS", Decode.DInteger 0);
  ("_MIN_SEQUENCE_NUMBER", Decode.DInteger 1);
  ("_MAX_SEQUENCE_NUMBER", Decode.DInteger 10);
  ("_SCHEMA_ID", Decode.DInteger 0);
  ("_LEVEL", Decode.DInteger 0);
  ("_EXTRA_FILES", Decode.DArray [])
].

(** The same record without its [_LEVEL] field. *)
Definition truncated_record : Decode.encoded :=
  filter (fun kv => negb (String.eqb (fst kv) "_LEVEL")) legacy_record.

(* ================================================================== *)
(** ** Auxiliary definitions for the path theorems *)

(** The path object when the [for] loop of [set_file_path] ends. *)
Definition loop_result (table_path : Pathlib.Path)
    (partition_dict : list (string * Py.value)) : Pathlib.Path :=
  fold_left (fun pb item => pb // partition_segment item)
            partition_dict table_path.

(** The directory of a bucket: the loop's result joined with the bucket
    segment. *)
Definition bucket_directory (table_path : Pathlib.Path)
    (partition : BinaryRow) (bucket : Z) : Pathlib.Path :=
  loop_result table_path (to_dict partition) // bucket_segment bucket.

(** Components written each behind a slash, as [str] writes the
    components that follow a first one. *)
Fixpoint slashed (t : list string) : string :=
  match t with
  | [] => ""
  | c :: rest => "/" ++ c ++ slashed rest
  end.

(** A string is empty or begins with the character [c]. *)
Definition empty_or_led (c : ascii) (r : string) : bool :=
  match r with
  | EmptyString => true
  | String a _ => Ascii.eqb a c
  end.

(** A string without a slash. *)
Definition slash_free (s : string) : bool :=
  negb (Py.contains Pathlib.sep s).

(** Upper case of an ASCII letter. *)
Definition upper (c : ascii) : ascii :=
  let n := nat_of_ascii c in
  if (97 <=? n)%nat && (n <=? 122)%nat then ascii_of_nat (n - 32) else c.

Fixpoint upper_string (s : string) : string :=
  match s with
  | EmptyString => EmptyString
  | String c rest => String (upper c) (upper_string rest)
  end.

(** The durable name the descriptor's naming scheme gives an attribute: an
    underscore, then the attribute in upper case. *)
Definition durable_name (attribute : string) : string :=
  "_" ++ upper_string attribute.

(** The attributes of the dataclass in declaration order, as
    [dataclasses.fields(DataFileMeta)] lists them. *)
Definition DataFileMeta_attributes : list string :=
  ["file_name"; "file_size"; "row_count"; "min_key"; "max_key";
   "key_stats"; "value_stats"; "min_sequence_number";
   "max_sequence_number"; "schema_id"; "level"; "extra_files";
   "creation_time"; "delete_row_count"; "embedded_index"; "file_source";
   "value_stats_cols"; "external_path"; "file_path"].

(* ================================================================== *)
(** * Checks on concrete inputs *)

Example str_int_3 : Py.str_int 3 = "3".
Proof. reflexivity. Qed.
Example str_int_0 : Py.str_int 0 = "0".
Proof. reflexivity. Qed.
Example str_int_neg : Py.str_int (-12) = "-12".
Proof. reflexivity. Qed.
Example parse_ex1 : Pathlib.of_string "/warehouse/t1" = Pathlib.mkPath "/" ["warehouse"; "t1"].
Proof. reflexivity. Qed.
Example parse_ex2 : Pathlib.of_string "//a/./b//c/" = Pathlib.mkPath "//" ["a"; "b"; "c"].
Proof. reflexivity. Qed.
Example parse_ex3 : Pathlib.of_string "///a" = Pathlib.mkPath "/" ["a"].
Proof. reflexivity. Qed.
Example parse_ex4 : Pathlib.to_str (Pathlib.of_string "") = ".".
Proof. reflexivity. Qed.
Example div_ex1 : Pathlib.to_str (Pathlib.of_string "/a" // "b/" // "./c") = "/a/b/c".
Proof. reflexivity. Qed.
Example div_ex2 : Pathlib.to_str (Pathlib.of_string "/a" // "b" // "/c") = "/c".
Proof. reflexivity. Qed.

Example resolve_ex1 :
  file_path (set_file_path
    (DataFileMeta_init "data-0001.parquet" 0 0 None None None None 0 0 0 0 None)
    (Pathlib.of_string "/warehouse/t1")
    (mkBinaryRow [("dt", Py.VStr "2024-01-01")]) 3)
  = Some "/warehouse/t1/dt=2024-01-01/bucket-3/data-0001.parquet".
Proof. reflexivity. Qed.

Example resolve_ex2 :
  Pathlib.to_str (build_path "/tmp/x" (Pathlib.of_string "/warehouse/t1")
                    (mkBinaryRow []) 0) = "/tmp/x".
Proof. reflexivity. Qed.

Example decode_missing_required :
  Decode.decode DATA_FILE_META_SCHEMA truncated_record
  = inl (Decode.MissingField "_LEVEL").
Proof. reflexivity. Qed.

Example decode_wrong_type :
  Decode.decode DATA_FILE_META_SCHEMA
    (("_FILE_NAME", Decode.DInteger 7) :: legacy_record)
  = inl (Decode.TypeMismatch "_FILE_NAME").
Proof. reflexivity. Qed.

Example resolve_trailing_slash :
  Pathlib.to_str (build_path "a/" (Pathlib.of_string "/warehouse/t1")
                    (mkBinaryRow []) 0) = "/warehouse/t1/bucket-0/a".
Proof. reflexivity. Qed.

Example resolve_root_only :
  Pathlib.to_str (build_path "f" (Pathlib.of_string "/")
                    (mkBinaryRow []) 0) = "/bucket-0/f".
Proof. reflexivity. Qed.

(* ================================================================== *)
(** * Strings, [split] and [join] *)

Section StringFacts.

Lemma append_assoc (a b c : string) : (a ++ b) ++ c = a ++ b ++ c.
Proof.
  induction a as [|x a IH]; simpl.
  - reflexivity.
  - now rewrite IH.
Qed.

Lemma append_inv_head (a b c : string) : a ++ b = a ++ c -> b = c.
Proof.
  induction a as [|x a IH]; simpl; intros H.
  - exact H.
  - injection H as H. now apply IH.
Qed.

Lemma split_not_nil (c : ascii) (s : string) : Py.split c s <> [].
Proof.
  destruct s as [|a s]; simpl.
  - discriminate.
  - destruct (Ascii.eqb a c); [discriminate|].
    destruct (Py.split c s); discriminate.
Qed.

(** Joining the pieces of a split gives the string back. *)
Lemma join_split (c : ascii) (s : string) :
  Py.join (String c "") (Py.split c s) = s.
Proof.
  induction s as [|a s IH]; simpl.
  - reflexivity.
  - destruct (Ascii.eqb_spec a c) as [->|Hne].
    + pose proof (split_not_nil c s) as Hnil.
      destruct (Py.split c s) as [|p ps] eqn:E; [congruence|].
      change (Py.join (String c "") ("" :: p :: ps))
        with ("" ++ String c "" ++ Py.join (String c "") (p :: ps)).
      now rewrite IH.
    + pose proof (split_not_nil c s) as Hnil.
      destruct (Py.split c s) as [|p ps] eqn:E; [congruence|].
      destruct ps as [|q ps].
      * simpl in *. now subst.
      * change (Py.join (String c "") (String a p :: q :: ps))
          with (String a (p ++ String c "" ++ Py.join (String c "") (q :: ps))).
        f_equal. exact IH.
Qed.

(** A string without the separator is its own single piece. *)
Lemma split_no_sep (c : ascii) (s : string) :
  Py.contains c s = false -> Py.split c s = [s].
Proof.
  induction s as [|a s IH]; simpl; intros H.
  - reflexivity.
  - apply orb_false_iff in H as [Ha Hs].
    rewrite Ha, (IH Hs). reflexivity.
Qed.

Lemma contains_append (c : ascii) (a b : string) :
  Py.contains c (a ++ b) = Py.contains c a || Py.contains c b.
Proof.
  induction a as [|x a IH]; simpl.
  - reflexivity.
  - now rewrite IH, orb_assoc.
Qed.

Lemma join_cons (sp x : string) (xs : list string) :
  xs <> [] -> Py.join sp (x :: xs) = x ++ sp ++ Py.join sp xs.
Proof.
  destruct xs; [congruence | reflexivity].
Qed.

(** Joining a concatenation of two non-empty lists. *)
Lemma join_app (sp : string) (xs ys : list string) :
  xs <> [] -> ys <> [] ->
  Py.join sp (xs ++ ys) = Py.join sp xs ++ sp ++ Py.join sp ys.
Proof.
  intros Hx Hy. induction xs as [|x xs IH]; [congruence|].
  destruct xs as [|x' xs].
  - simpl app. now apply join_cons.
  - change ((x :: x' :: xs) ++ ys)%list with (x :: ((x' :: xs) ++ ys))%list.
    rewrite join_cons by discriminate.
    rewrite IH by discriminate.
    rewrite (join_cons sp x (x' :: xs)) by discriminate.
    now rewrite !append_assoc.
Qed.

(** The digits of an integer hold no slash. *)
Lemma uint_no_slash (d : Decimal.uint) :
  Py.contains "/" (NilEmpty.string_of_uint d) = false.
Proof.
  induction d; simpl; auto.
Qed.

Lemma str_int_no_slash (z : Z) : Py.contains "/" (Py.str_int z) = false.
Proof.
  unfold Py.str_int, NilZero.string_of_int, NilZero.string_of_uint.
  destruct (Z.to_int z) as [d|d]; destruct d; simpl;
    try reflexivity; apply uint_no_slash.
Qed.

End StringFacts.

(* ================================================================== *)
(** * Paths *)

Section PathFacts.

Import Pathlib.

Lemma normal_segment_relative (key : string) :
  normal_segment key = true -> Py.startswith sep key = false.
Proof.
  unfold normal_segment. destruct key as [|a key]; simpl; [reflexivity|].
  destruct (Ascii.eqb a sep); simpl; [discriminate | reflexivity].
Qed.

Lemma splitroot_relative (key : string) :
  Py.startswith sep key = false -> splitroot key = ("", key).
Proof.
  destruct key as [|a key]; simpl; [reflexivity|].
  now intros ->.
Qed.

Lemma filter_all {A : Type} (f : A -> bool) (xs : list A) :
  forallb f xs = true -> filter f xs = xs.
Proof.
  induction xs as [|x xs IH]; simpl; [reflexivity|].
  intros H. apply andb_true_iff in H as [Hx Hxs].
  now rewrite Hx, IH.
Qed.

(** Parsing a normal segment only splits it. *)
Lemma parse_normal_segment (key : string) :
  normal_segment key = true ->
  parse_path key = mkPath "" (Py.split sep key).
Proof.
  intros H. unfold parse_path.
  rewrite (splitroot_relative key (normal_segment_relative key H)).
  now rewrite filter_all.
Qed.

Lemma truediv_normal_segment (p : Path) (key : string) :
  normal_segment key = true ->
  p // key = mkPath (root p) (tail p ++ Py.split sep key).
Proof.
  intros H. unfold truediv.
  rewrite (normal_segment_relative key H).
  now rewrite (parse_normal_segment key H).
Qed.

Lemma to_str_components (r : string) (t : list string) :
  t <> [] -> to_str (mkPath r t) = r ++ Py.join "/" t.
Proof.
  intros Ht. unfold to_str; simpl.
  destruct r; [|reflexivity].
  destruct t; [congruence | reflexivity].
Qed.

Lemma has_components_tail (p : Path) :
  has_components p = true <-> tail p <> [].
Proof.
  unfold has_components. destruct (tail p); split; congruence.
Qed.

Lemma has_components_truediv (p : Path) (key : string) :
  normal_segment key = true -> has_components (p // key) = true.
Proof.
  intros H. rewrite (truediv_normal_segment p key H).
  apply has_components_tail; simpl.
  pose proof (split_not_nil sep key) as Hs.
  destruct (tail p); simpl; [exact Hs | discriminate].
Qed.

(** Appending a normal segment to a path with components appends a slash
    and the segment to its string. *)
Lemma to_str_truediv (p : Path) (key : string) :
  has_components p = true -> normal_segment key = true ->
  to_str (p // key) = to_str p ++ "/" ++ key.
Proof.
  intros Hp Hk. apply has_components_tail in Hp.
  rewrite (truediv_normal_segment p key Hk).
  pose proof (split_not_nil sep key) as Hs.
  rewrite to_str_components by (destruct (tail p); simpl; congruence).
  rewrite join_app by assumption.
  change "/" with (String sep "") at 3.
  rewrite join_split.
  destruct p as [r t]; simpl in *.
  rewrite to_str_components by assumption.
  now rewrite append_assoc.
Qed.

(** The bucket segment is one plain component. *)
Lemma bucket_segment_normal (bucket : Z) :
  normal_segment (bucket_segment bucket) = true.
Proof.
  unfold normal_segment, bucket_segment.
  rewrite split_no_sep.
  - reflexivity.
  - rewrite contains_append, str_int_no_slash. reflexivity.
Qed.

Lemma truediv_bucket_segment (p : Path) (bucket : Z) :
  p // bucket_segment bucket
  = mkPath (root p) (tail p ++ [bucket_segment bucket]).
Proof.
  rewrite truediv_normal_segment by apply bucket_segment_normal.
  unfold bucket_segment at 1. rewrite split_no_sep; [reflexivity|].
  rewrite contains_append, str_int_no_slash. reflexivity.
Qed.

(** The loop over normal partition segments, in strings. *)
Lemma fold_partition_segments (items : list (string * Py.value)) :
  forall p : Path,
    has_components p = true ->
    forallb (fun item => normal_segment (partition_segment item)) items = true ->
    let q := fold_left (fun pb item => pb // partition_segment item) items p in
    has_components q = true /\
    to_str q =
      fold_left (fun (acc : string) item =>
                   acc ++ "/" ++ fst item ++ "=" ++ Py.str (snd item))
                items (to_str p).
Proof.
  induction items as [|item items IH]; intros p Hp Hall; simpl in *.
  - now split.
  - apply andb_true_iff in Hall as [Hitem Hrest].
    specialize (IH (p // partition_segment item)
                   (has_components_truediv p _ Hitem) Hrest).
    destruct IH as [Hq Hstr]. split; [exact Hq|].
    rewrite Hstr, (to_str_truediv p _ Hp Hitem). reflexivity.
Qed.

End PathFacts.

(* ================================================================== *)
(** * Path resolution *)

Section ResolvePath.

Import Pathlib.

Variables (table_path : Path) (partition : BinaryRow) (bucket : Z).

(** The path before the file name is appended always ends in the bucket
    component. *)
Lemma bucket_directory_components :
  has_components
    (fold_left (fun pb item => pb // partition_segment item)
               (to_dict partition) table_path
     // bucket_segment bucket) = true.
Proof.
  apply has_components_truediv, bucket_segment_normal.
Qed.

Lemma set_file_path_stores (self : DataFileMeta) :
  file_path (set_file_path self table_path partition bucket)
  = Some (to_str (build_path (file_name self) table_path partition bucket)).
Proof. reflexivity. Qed.

(** For a file name that is a normal segment the resolved string is the
    bucket directory, a slash, and the file name. *)
Lemma build_path_normal_file_name (fname : string) :
  normal_segment fname = true ->
  to_str (build_path fname table_path partition bucket)
  = to_str (fold_left (fun pb item => pb // partition_segment item)
                      (to_dict partition) table_path
            // bucket_segment bucket)
    ++ "/" ++ fname.
Proof.
  intros Hf. unfold build_path.
  apply to_str_truediv; [apply bucket_directory_components | exact Hf].
Qed.

End ResolvePath.

(** C1, as stated, fails: with the absolute file name ["/tmp/x"], table root
    ["/warehouse/t1"], no partition column and bucket 0, the call stores
    ["/tmp/x"], not the formatted string
    ["/warehouse/t1/bucket-0//tmp/x"]: joining an absolute segment onto a
    path replaces the path. *)
Lemma set_file_path_format_counterexample :
  file_path (set_file_path (file_named "/tmp/x")
               (Pathlib.of_string "/warehouse/t1") (mkBinaryRow []) 0)
    = Some "/tmp/x"
  /\ spec_path (Pathlib.to_str (Pathlib.of_string "/warehouse/t1")) [] 0 "/tmp/x"
    = "/warehouse/t1/bucket-0//tmp/x"
  /\ file_path (set_file_path (file_named "/tmp/x")
               (Pathlib.of_string "/warehouse/t1") (mkBinaryRow []) 0)
    <> Some (spec_path (Pathlib.to_str (Pathlib.of_string "/warehouse/t1"))
                       [] 0 "/tmp/x").
Proof.
  repeat split; discriminate.
Qed.

(** C1 (amended): when the table root has at least one component and every
    partition segment ["<column>=<value>"] and the file name are normal
    segments (relative, without empty or ["."] pieces), [set_file_path]
    stores the string [<root>/<col1>=<val1>/.../bucket-<bucket>/<file_name>],
    the partition columns in iteration order. *)
Theorem set_file_path_format
    (self : DataFileMeta) (table_path : Pathlib.Path)
    (partition : BinaryRow) (bucket : Z) :
  Pathlib.has_components table_path = true ->
  forallb (fun item => Pathlib.normal_segment (partition_segment item))
          (to_dict partition) = true ->
  Pathlib.normal_segment (file_name self) = true ->
  file_path (set_file_path self table_path partition bucket)
  = Some (spec_path (Pathlib.to_str table_path) (to_dict partition)
                    bucket (file_name self)).
Proof.
  intros Hroot Hsegs Hname.
  rewrite set_file_path_stores.
  rewrite build_path_normal_file_name by exact Hname.
  destruct (fold_partition_segments (to_dict partition) table_path Hroot Hsegs)
    as [Hq Hstr].
  rewrite to_str_truediv by (exact Hq || apply bucket_segment_normal).
  rewrite Hstr. unfold spec_path, bucket_segment.
  now rewrite !append_assoc.
Qed.

(** The example of the specification, as an instance of the theorem. *)
Lemma set_file_path_format_witness :
  file_path (set_file_path (file_named "data-0001.parquet")
               (Pathlib.of_string "/warehouse/t1")
               (mkBinaryRow [("dt", Py.VStr "2024-01-01")]) 3)
  = Some "/warehouse/t1/dt=2024-01-01/bucket-3/data-0001.parquet".
Proof.
  exact (set_file_path_format (file_named "data-0001.parquet")
           (Pathlib.of_string "/warehouse/t1")
           (mkBinaryRow [("dt", Py.VStr "2024-01-01")]) 3
           eq_refl eq_refl eq_refl).
Defined.

(** C2, as stated, fails: ["data-0001.parquet"] and
    ["./data-0001.parquet"] are distinct file names, and under the same
    root, partition and bucket both records get the same path. *)
Lemma set_file_path_injective_counterexample :
  file_name (file_named "data-0001.parquet")
    <> file_name (file_named "./data-0001.parquet")
  /\ file_path (set_file_path (file_named "data-0001.parquet")
                  (Pathlib.of_string "/warehouse/t1")
                  (mkBinaryRow [("dt", Py.VStr "2024-01-01")]) 3)
     = file_path (set_file_path (file_named "./data-0001.parquet")
                  (Pathlib.of_string "/warehouse/t1")
                  (mkBinaryRow [("dt", Py.VStr "2024-01-01")]) 3).
Proof.
  split; [discriminate | reflexivity].
Qed.

(** C2 (amended): under the same table root, partition and bucket, two
    records with equal file names get equal paths; and two records whose
    file names are distinct normal segments (relative, without empty or
    ["."] pieces) get distinct paths. *)
Theorem set_file_path_injective
    (m1 m2 : DataFileMeta) (table_path : Pathlib.Path)
    (partition : BinaryRow) (bucket : Z) :
  (file_name m1 = file_name m2 ->
   file_path (set_file_path m1 table_path partition bucket)
   = file_path (set_file_path m2 table_path partition bucket))
  /\
  (Pathlib.normal_segment (file_name m1) = true ->
   Pathlib.normal_segment (file_name m2) = true ->
   file_name m1 <> file_name m2 ->
   file_path (set_file_path m1 table_path partition bucket)
   <> file_path (set_file_path m2 table_path partition bucket)).
Proof.
  rewrite !set_file_path_stores. split.
  - now intros ->.
  - intros H1 H2 Hne H. apply Hne.
    rewrite !build_path_normal_file_name in H by assumption.
    injection H as H.
    apply append_inv_head in H.
    now apply (append_inv_head "/") in H.
Qed.

Lemma set_file_path_injective_witness :
  file_path (set_file_path (file_named "data-0001.parquet")
               (Pathlib.of_string "/warehouse/t1")
               (mkBinaryRow [("dt", Py.VStr "2024-01-01")]) 3)
  <> file_path (set_file_path (file_named "data-0002.parquet")
               (Pathlib.of_string "/warehouse/t1")
               (mkBinaryRow [("dt", Py.VStr "2024-01-01")]) 3).
Proof.
  apply (proj2 (set_file_path_injective (file_named "data-0001.parquet")
                  (file_named "data-0002.parquet")
                  (Pathlib.of_string "/warehouse/t1")
                  (mkBinaryRow [("dt", Py.VStr "2024-01-01")]) 3)).
  - reflexivity.
  - reflexivity.
  - simpl. discriminate.
Defined.




(** C9: [set_file_path] changes the [file_path] attribute only; every
    other field of the record is as before the call.  The call is a
    function of the record and its three arguments: there is no storage
    for it to touch. *)
Theorem set_file_path_frame
    (self : DataFileMeta) (table_path : Pathlib.Path)
    (partition : BinaryRow) (bucket : Z) :
  let self' := set_file_path self table_path partition bucket in
  file_name self' = file_name self
  /\ file_size self' = file_size self
  /\ row_count self' = row_count self
  /\ min_key self' = min_key self
  /\ max_key self' = max_key self
  /\ key_stats self' = key_stats self
  /\ value_stats self' = value_stats self
  /\ min_sequence_number self' = min_sequence_number self
  /\ max_sequence_number self' = max_sequence_number self
  /\ schema_id self' = schema_id self
  /\ level self' = level self
  /\ extra_files self' = extra_files self
  /\ creation_time self' = creation_time self
  /\ delete_row_count self' = delete_row_count self
  /\ embedded_index self' = embedded_index self
  /\ file_source self' = file_source self
  /\ value_stats_cols self' = value_stats_cols self
  /\ external_path self' = external_path self.
Proof.
  cbv zeta. unfold set_file_path, assign_file_path; simpl.
  repeat split.
Qed.

(** C10: the stored path depends on the table root, the partition, the
    bucket and the file name only: two records with the same file name get
    the same [file_path], whatever their other fields hold. *)
Theorem set_file_path_depends_on_file_name
    (m1 m2 : DataFileMeta) (table_path : Pathlib.Path)
    (partition : BinaryRow) (bucket : Z) :
  file_name m1 = file_name m2 ->
  file_path (set_file_path m1 table_path partition bucket)
  = file_path (set_file_path m2 table_path partition bucket).
Proof.
  intros H. rewrite !set_file_path_stores. now rewrite H.
Qed.

Lemma set_file_path_depends_on_file_name_witness :
  file_path (set_file_path
               (mkDataFileMeta "data-0001.parquet" 10 2 None None None None
                  1 2 0 0 None None None None None None
                  (Some "s3://elsewhere/data-0001.parquet") None)
               (Pathlib.of_string "/warehouse/t1")
               (mkBinaryRow [("dt", Py.VStr "2024-01-01")]) 3)
  = file_path (set_file_path
               (mkDataFileMeta "data-0001.parquet" 99 7 None None None None
                  5 9 4 1 (Some ["idx"]) None (Some 1%Z) None None None
                  None (Some "stale"))
               (Pathlib.of_string "/warehouse/t1")
               (mkBinaryRow [("dt", Py.VStr "2024-01-01")]) 3).
Proof.
  apply set_file_path_depends_on_file_name. reflexivity.
Defined.

(* ================================================================== *)
(** * Invariants of the record *)

(** C6, as stated, fails: the constructor accepts a [min_key] together
    with an absent [max_key]. *)
Lemma key_pairing_counterexample :
  min_key (DataFileMeta_init "data-0001.parquet" 10 2
             (Some (mkBinaryRow [("id", Py.VInt 1)])) None
             None None 1 2 0 0 None)
    = Some (mkBinaryRow [("id", Py.VInt 1)])
  /\ max_key (DataFileMeta_init "data-0001.parquet" 10 2
             (Some (mkBinaryRow [("id", Py.VInt 1)])) None
             None None 1 2 0 0 None)
    = None
  /\ keys_paired (DataFileMeta_init "data-0001.parquet" 10 2
             (Some (mkBinaryRow [("id", Py.VInt 1)])) None
             None None 1 2 0 0 None)
    = false.
Proof.
  repeat split.
Qed.

(** C6 (amended): [min_key] and [max_key] are two independent optional
    fields, stored as supplied: a record has both present or both absent
    exactly when its creator supplied them so, and [set_file_path] does
    not change that.  In the schema descriptor both [_MIN_KEY] and
    [_MAX_KEY] are required [bytes] fields. *)
Theorem key_pairing_as_supplied :
  (forall (fname : string) (fsize rows : Z) (mink maxk : option BinaryRow)
          (kstats vstats : option stats_dict) (min_seq max_seq sid lvl : Z)
          (extra : option (list string)),
     keys_paired (DataFileMeta_init fname fsize rows mink maxk kstats vstats
                    min_seq max_seq sid lvl extra)
     = Bool.eqb (is_some mink) (is_some maxk))
  /\ (forall (m : DataFileMeta) (table_path : Pathlib.Path)
             (partition : BinaryRow) (bucket : Z),
        keys_paired (set_file_path m table_path partition bucket)
        = keys_paired m)
  /\ map (fun f => (name f, ftype f, required f))
         (filter (fun f => String.eqb (name f) "_MIN_KEY"
                           || String.eqb (name f) "_MAX_KEY")
                 (fields DATA_FILE_META_SCHEMA))
     = [("_MIN_KEY", TBytes, true); ("_MAX_KEY", TBytes, true)].
Proof.
  split; [|split]; reflexivity.
Qed.

(* ================================================================== *)
(** * The schema descriptor *)

(** C3: the descriptor lists eighteen fields, row by row the fields of the
    durable record layout, in its order and with its types; the first
    twelve ([_FILE_NAME] to [_EXTRA_FILES]) are required, the last six
    ([_CREATION_TIME] to [_EXTERNAL_PATH]) are nullable with the explicit
    default [None]. *)
Theorem schema_matches_layout :
  map name (fields DATA_FILE_META_SCHEMA)
  = ["_FILE_NAME"; "_FILE_SIZE"; "_ROW_COUNT"; "_MIN_KEY"; "_MAX_KEY";
     "_KEY_STATS"; "_VALUE_STATS"; "_MIN_SEQUENCE_NUMBER";
     "_MAX_SEQUENCE_NUMBER"; "_SCHEMA_ID"; "_LEVEL"; "_EXTRA_FILES";
     "_CREATION_TIME"; "_DELETE_ROW_COUNT"; "_EMBEDDED_FILE_INDEX";
     "_FILE_SOURCE"; "_VALUE_STATS_COLS"; "_EXTERNAL_PATH"]
  /\ List.length (fields DATA_FILE_META_SCHEMA) = 18%nat
  /\ List.length Layout.table = 18%nat
  /\ map (fun f => (ftype f, default f)) (fields DATA_FILE_META_SCHEMA)
     = map Layout.shape Layout.table
  /\ map Layout.is_optional Layout.table
     = map optional (fields DATA_FILE_META_SCHEMA)
  /\ forallb required legacy_fields = true
  /\ forallb optional trailing_fields = true
  /\ List.length legacy_fields = 12%nat
  /\ List.length trailing_fields = 6%nat
  /\ fields DATA_FILE_META_SCHEMA = (legacy_fields ++ trailing_fields)%list.
Proof.
  repeat split.
Qed.

(** C7: no field of the descriptor stands for [file_path]: none of the
    eighteen durable names spells that attribute.  A newly constructed
    record has no [file_path], and [set_file_path] is what stores one,
    computed from the table root, partition, bucket and file name. *)
Theorem file_path_not_durable :
  forallb (fun f => negb (String.eqb (attribute_of (name f)) "file_path"))
          (fields DATA_FILE_META_SCHEMA) = true
  /\ ~ In "file_path" (map (fun f => attribute_of (name f))
                           (fields DATA_FILE_META_SCHEMA))
  /\ ~ In "_FILE_PATH" (map name (fields DATA_FILE_META_SCHEMA))
  /\ (forall (fname : string) (fsize rows : Z) (mink maxk : option BinaryRow)
             (kstats vstats : option stats_dict) (min_seq max_seq sid lvl : Z)
             (extra : option (list string)),
        file_path (DataFileMeta_init fname fsize rows mink maxk kstats vstats
                     min_seq max_seq sid lvl extra) = None)
  /\ (forall (m : DataFileMeta) (table_path : Pathlib.Path)
             (partition : BinaryRow) (bucket : Z),
        file_path (set_file_path m table_path partition bucket)
        = Some (Pathlib.to_str
                  (build_path (file_name m) table_path partition bucket))).
Proof.
  split; [reflexivity|].
  split; [|split; [|split; reflexivity]].
  - simpl. intuition discriminate.
  - simpl. intuition discriminate.
Qed.

(* ================================================================== *)
(** * Decoding records of the original format *)

Section DecodeFacts.

Import Decode.











End DecodeFacts.



(* ================================================================== *)
(** * Further facts on strings and components *)

Section ComponentFacts.

Lemma append_eq_nil (a b : string) : a ++ b = "" -> a = "" /\ b = "".
Proof.
  destruct a; simpl; [now split | discriminate].
Qed.

(** Two slash-free prefixes, each followed by nothing or by a slash, are
    equal when the whole strings are. *)
Lemma separated_prefix_unique (c : ascii) (x : string) :
  forall y r1 r2 : string,
    Py.contains c x = false -> Py.contains c y = false ->
    empty_or_led c r1 = true -> empty_or_led c r2 = true ->
    x ++ r1 = y ++ r2 -> x = y /\ r1 = r2.
Proof.
  induction x as [|a x IH]; intros [|b y] r1 r2 Hx Hy H1 H2 H; simpl in *.
  - now split.
  - subst r1. simpl in H1. apply orb_false_iff in Hy as [Hb _]. congruence.
  - subst r2. simpl in H2. apply orb_false_iff in Hx as [Ha _]. congruence.
  - injection H as -> H.
    apply orb_false_iff in Hx as [_ Hx]. apply orb_false_iff in Hy as [_ Hy].
    destruct (IH y r1 r2 Hx Hy H1 H2 H) as [-> ->]. now split.
Qed.

Lemma slashed_led (t : list string) : empty_or_led "/" (slashed t) = true.
Proof.
  destruct t; reflexivity.
Qed.

Lemma slashed_app (t u : list string) :
  slashed (t ++ u) = slashed t ++ slashed u.
Proof.
  induction t as [|c t IH]; simpl; [reflexivity|].
  now rewrite IH, append_assoc.
Qed.

(** Slash-free components are read back from their slashed string. *)
Lemma slashed_injective (t1 : list string) :
  forall t2 : list string,
    Forall (fun c => Py.contains "/" c = false) t1 ->
    Forall (fun c => Py.contains "/" c = false) t2 ->
    slashed t1 = slashed t2 -> t1 = t2.
Proof.
  induction t1 as [|c1 t1 IH]; intros [|c2 t2] F1 F2 H; simpl in H;
    try discriminate; [reflexivity|].
  injection H as H.
  inversion F1 as [|? ? Hc1 F1']; inversion F2 as [|? ? Hc2 F2']; subst.
  destruct (separated_prefix_unique "/" c1 c2 _ _ Hc1 Hc2
              (slashed_led t1) (slashed_led t2) H) as [-> Hrest].
  now rewrite (IH t2 F1' F2' Hrest).
Qed.

Lemma join_cons_slashed (x : string) (t : list string) :
  Py.join "/" (x :: t) = x ++ slashed t.
Proof.
  revert x. induction t as [|y t IH]; intros x.
  - simpl. induction x as [|a x IHx]; simpl; [reflexivity | now rewrite <- IHx].
  - change (Py.join "/" (x :: y :: t)) with (x ++ "/" ++ Py.join "/" (y :: t)).
    now rewrite IH.
Qed.

Lemma join_app_slashed (t u : list string) :
  t <> [] -> Py.join "/" (t ++ u) = Py.join "/" t ++ slashed u.
Proof.
  destruct t as [|x t]; [congruence|]. intros _.
  change ((x :: t) ++ u)%list with (x :: (t ++ u))%list.
  now rewrite !join_cons_slashed, slashed_app, append_assoc.
Qed.

(** Components after a common prefix are read back from the joined
    string, when they are slash-free and there is at least one. *)
Lemma join_suffix_injective (t x1 x2 : list string) :
  x1 <> [] -> x2 <> [] ->
  Forall (fun c => Py.contains "/" c = false) x1 ->
  Forall (fun c => Py.contains "/" c = false) x2 ->
  Py.join "/" (t ++ x1) = Py.join "/" (t ++ x2) -> x1 = x2.
Proof.
  intros N1 N2 F1 F2 H. destruct t as [|a t].
  - destruct x1 as [|c1 x1]; [congruence|].
    destruct x2 as [|c2 x2]; [congruence|].
    change ([] ++ c1 :: x1)%list with (c1 :: x1) in H.
    change ([] ++ c2 :: x2)%list with (c2 :: x2) in H.
    rewrite !join_cons_slashed in H.
    inversion F1 as [|? ? Hc1 F1']; inversion F2 as [|? ? Hc2 F2']; subst.
    destruct (separated_prefix_unique "/" c1 c2 _ _ Hc1 Hc2
                (slashed_led x1) (slashed_led x2) H) as [-> Hrest].
    now rewrite (slashed_injective x1 x2 F1' F2' Hrest).
  - rewrite !join_app_slashed in H by discriminate.
    apply append_inv_head in H.
    now apply slashed_injective.
Qed.

(** No piece of a split holds the separator. *)
Lemma split_pieces_sep_free (c : ascii) (s : string) :
  Forall (fun x => Py.contains c x = false) (Py.split c s).
Proof.
  induction s as [|a s IH]; simpl.
  - now repeat constructor.
  - destruct (Ascii.eqb a c) eqn:E.
    + now constructor.
    + destruct (Py.split c s) as [|p ps].
      { constructor; [simpl; now rewrite E | constructor]. }
      inversion IH as [|? ? Hp Hps]; subst.
      constructor; [simpl; now rewrite E, Hp | exact Hps].
Qed.

(** Splitting at a separator splits the two sides. *)
Lemma split_app_sep (c : ascii) (a b : string) :
  Py.split c (a ++ String c b) = (Py.split c a ++ Py.split c b)%list.
Proof.
  induction a as [|x a IH]; simpl.
  - now rewrite Ascii.eqb_refl.
  - destruct (Ascii.eqb x c); [now rewrite IH|].
    rewrite IH. pose proof (split_not_nil c a) as Hn.
    destruct (Py.split c a); [congruence | reflexivity].
Qed.

Lemma uint_no_equals (d : Decimal.uint) :
  Py.contains "=" (NilEmpty.string_of_uint d) = false.
Proof.
  induction d; simpl; auto.
Qed.

Lemma str_int_no_equals (z : Z) : Py.contains "=" (Py.str_int z) = false.
Proof.
  unfold Py.str_int, NilZero.string_of_int, NilZero.string_of_uint.
  destruct (Z.to_int z) as [d|d]; destruct d; simpl;
    try reflexivity; apply uint_no_equals.
Qed.

(** [str] of an integer determines the integer. *)
Lemma str_int_injective (a b : Z) : Py.str_int a = Py.str_int b -> a = b.
Proof.
  unfold Py.str_int. intros H.
  assert (Hnn : forall z, Z.to_int z <> Pos Nil /\ Z.to_int z <> Neg Nil).
  { intros [|p|p]; simpl; split; try discriminate;
      intros E; injection E as E;
      now apply (DecimalPos.Unsigned.to_uint_nonnil p). }
  pose proof (NilZero.isi (Z.to_int a) (proj1 (Hnn a)) (proj2 (Hnn a))) as Ha.
  pose proof (NilZero.isi (Z.to_int b) (proj1 (Hnn b)) (proj2 (Hnn b))) as Hb.
  rewrite H, Hb in Ha. injection Ha as Ha.
  now rewrite <- (DecimalZ.of_to a), <- (DecimalZ.of_to b), Ha.
Qed.

End ComponentFacts.

(* ================================================================== *)
(** * The components of a resolved path *)

Section ResolvedComponents.

Import Pathlib.

Lemma append_empty_r (a : string) : a ++ "" = a.
Proof.
  induction a as [|x a IH]; simpl; [reflexivity | now rewrite IH].
Qed.

Lemma truediv_relative (p : Path) (key : string) :
  Py.startswith sep key = false ->
  p // key = mkPath (root p) (tail p ++ tail (parse_path key)).
Proof.
  unfold truediv. now intros ->.
Qed.

Lemma truediv_absolute (p : Path) (key : string) :
  Py.startswith sep key = true -> p // key = parse_path key.
Proof.
  unfold truediv. now intros ->.
Qed.

Lemma parse_relative (key : string) :
  Py.startswith sep key = false ->
  parse_path key = mkPath "" (filter keep_part (Py.split sep key)).
Proof.
  intros H. unfold parse_path. now rewrite (splitroot_relative key H).
Qed.

Lemma parse_tail_slash_free (s : string) :
  Forall (fun c => Py.contains "/" c = false) (tail (parse_path s)).
Proof.
  unfold parse_path. destruct (splitroot s) as [r rel]; simpl.
  apply Forall_forall. intros c Hc. apply filter_In in Hc as [Hc _].
  pose proof (split_pieces_sep_free sep rel) as F.
  rewrite Forall_forall in F. now apply F.
Qed.

Lemma parse_absolute_root (s : string) :
  Py.startswith sep s = true -> root (parse_path s) <> "".
Proof.
  unfold parse_path, splitroot. destruct s as [|a s]; simpl; [discriminate|].
  intros ->. destruct s as [|b s]; simpl; [discriminate|].
  destruct (Ascii.eqb b sep); [|discriminate].
  destruct (Py.startswith sep s); discriminate.
Qed.

Lemma to_str_rooted (p : Path) : root p <> "" -> to_str p <> "".
Proof.
  unfold to_str. destruct (root p) as [|a r]; [congruence|].
  intros _. simpl. discriminate.
Qed.

Variables (table_path : Path) (partition : BinaryRow) (bucket : Z).

Lemma build_path_bucket_directory (fname : string) :
  build_path fname table_path partition bucket
  = bucket_directory table_path partition bucket // fname.
Proof. reflexivity. Qed.

Lemma bucket_directory_components_eq :
  bucket_directory table_path partition bucket
  = mkPath (root (loop_result table_path (to_dict partition)))
           (tail (loop_result table_path (to_dict partition))
            ++ [bucket_segment bucket]).
Proof.
  unfold bucket_directory. apply truediv_bucket_segment.
Qed.

Lemma build_path_relative (fname : string) :
  Py.startswith sep fname = false ->
  build_path fname table_path partition bucket
  = mkPath (root (loop_result table_path (to_dict partition)))
           (tail (loop_result table_path (to_dict partition))
            ++ bucket_segment bucket :: tail (parse_path fname)).
Proof.
  intros H. rewrite build_path_bucket_directory, bucket_directory_components_eq.
  rewrite (truediv_relative _ _ H). simpl.
  now rewrite <- app_assoc.
Qed.

(** For a relative file name the resolved string is the bucket
    directory's, then the file name's components each behind a slash. *)
Lemma resolved_relative_string (fname : string) :
  Py.startswith sep fname = false ->
  to_str (build_path fname table_path partition bucket)
  = to_str (bucket_directory table_path partition bucket)
    ++ slashed (tail (parse_path fname)).
Proof.
  intros H. rewrite build_path_bucket_directory, bucket_directory_components_eq.
  rewrite (truediv_relative _ _ H). simpl root; simpl tail.
  set (r := root (loop_result table_path (to_dict partition))).
  set (t := tail (loop_result table_path (to_dict partition))).
  assert (Hn : (t ++ [bucket_segment bucket])%list <> [])
    by (destruct t; discriminate).
  rewrite !to_str_components.
  - rewrite join_app_slashed by exact Hn. now rewrite append_assoc.
  - exact Hn.
  - destruct t; discriminate.
Qed.

Lemma bucket_directory_str_nonempty :
  to_str (bucket_directory table_path partition bucket) <> "".
Proof.
  rewrite bucket_directory_components_eq.
  set (r := root (loop_result table_path (to_dict partition))).
  set (t := tail (loop_result table_path (to_dict partition))).
  rewrite to_str_components by (destruct t; discriminate).
  intros H. apply append_eq_nil in H as [_ H].
  destruct t as [|x t].
  - simpl in H. discriminate.
  - rewrite join_app_slashed in H by discriminate.
    apply append_eq_nil in H as [_ H]. simpl in H. discriminate.
Qed.

End ResolvedComponents.

(* ================================================================== *)
(** * Path resolution: absolute and relative file names *)

(** X1: a file name that begins with a slash replaces everything built
    before it: the stored path is [str(Path(file_name))], whatever the
    table root, the partition and the bucket. *)
Theorem set_file_path_absolute_file_name
    (self : DataFileMeta) (table_path : Pathlib.Path)
    (partition : BinaryRow) (bucket : Z) :
  Py.startswith Pathlib.sep (file_name self) = true ->
  file_path (set_file_path self table_path partition bucket)
  = Some (Pathlib.to_str (Pathlib.of_string (file_name self))).
Proof.
  intros H. rewrite set_file_path_stores, build_path_bucket_directory.
  now rewrite (truediv_absolute _ _ H).
Qed.

Lemma set_file_path_absolute_file_name_witness :
  file_path (set_file_path (file_named "/tmp//x/./y")
               (Pathlib.of_string "/warehouse/t1")
               (mkBinaryRow [("dt", Py.VStr "2024-01-01")]) 3)
  = Some (Pathlib.to_str (Pathlib.of_string "/tmp//x/./y")).
Proof.
  apply (set_file_path_absolute_file_name (file_named "/tmp//x/./y")).
  reflexivity.
Defined.

(** X2: for a file name that does not begin with a slash, the built path
    keeps the anchor of the loop's result and has its components, then the
    bucket segment as one component, then the components of the file
    name. *)
Theorem build_path_relative_components
    (fname : string) (table_path : Pathlib.Path)
    (partition : BinaryRow) (bucket : Z) :
  Py.startswith Pathlib.sep fname = false ->
  Pathlib.root (build_path fname table_path partition bucket)
  = Pathlib.root (loop_result table_path (to_dict partition))
  /\ Pathlib.tail (build_path fname table_path partition bucket)
     = (Pathlib.tail (loop_result table_path (to_dict partition))
        ++ [bucket_segment bucket]
        ++ Pathlib.tail (Pathlib.of_string fname))%list.
Proof.
  intros H. rewrite (build_path_relative _ _ _ _ H). now split.
Qed.

Lemma build_path_relative_components_witness :
  Pathlib.root (build_path "a//b/./c/" (Pathlib.of_string "/warehouse/t1")
                  (mkBinaryRow [("dt", Py.VStr "2024-01-01")]) 3)
  = Pathlib.root (loop_result (Pathlib.of_string "/warehouse/t1")
                    [("dt", Py.VStr "2024-01-01")])
  /\ Pathlib.tail (build_path "a//b/./c/" (Pathlib.of_string "/warehouse/t1")
                     (mkBinaryRow [("dt", Py.VStr "2024-01-01")]) 3)
     = (Pathlib.tail (loop_result (Pathlib.of_string "/warehouse/t1")
                        [("dt", Py.VStr "2024-01-01")])
        ++ [bucket_segment 3]
        ++ Pathlib.tail (Pathlib.of_string "a//b/./c/"))%list.
Proof.
  apply (build_path_relative_components "a//b/./c/"
           (Pathlib.of_string "/warehouse/t1")
           (mkBinaryRow [("dt", Py.VStr "2024-01-01")]) 3).
  reflexivity.
Defined.

(** X3: under the same table root, partition and bucket, two records with
    relative file names get the same path exactly when the two file names
    have the same components (the pieces between slashes that are neither
    empty nor ["."]). *)
Theorem set_file_path_collision_iff
    (m1 m2 : DataFileMeta) (table_path : Pathlib.Path)
    (partition : BinaryRow) (bucket : Z) :
  Py.startswith Pathlib.sep (file_name m1) = false ->
  Py.startswith Pathlib.sep (file_name m2) = false ->
  (file_path (set_file_path m1 table_path partition bucket)
   = file_path (set_file_path m2 table_path partition bucket)
   <-> Pathlib.tail (Pathlib.of_string (file_name m1))
       = Pathlib.tail (Pathlib.of_string (file_name m2))).
Proof.
  intros H1 H2. rewrite !set_file_path_stores.
  rewrite !resolved_relative_string by assumption.
  unfold Pathlib.of_string. split.
  - intros H. injection H as H. apply append_inv_head in H.
    apply slashed_injective in H; [exact H | |]; apply parse_tail_slash_free.
  - now intros ->.
Qed.

Lemma set_file_path_collision_iff_witness :
  file_path (set_file_path (file_named "idx/data.parquet")
               (Pathlib.of_string "/warehouse/t1") (mkBinaryRow []) 0)
  = file_path (set_file_path (file_named "idx//./data.parquet/")
               (Pathlib.of_string "/warehouse/t1") (mkBinaryRow []) 0)
  <-> Pathlib.tail (Pathlib.of_string "idx/data.parquet")
      = Pathlib.tail (Pathlib.of_string "idx//./data.parquet/").
Proof.
  apply (set_file_path_collision_iff (file_named "idx/data.parquet")
           (file_named "idx//./data.parquet/")
           (Pathlib.of_string "/warehouse/t1") (mkBinaryRow []) 0);
    reflexivity.
Defined.

(** X4: a relative file name without components (the empty string, ["."],
    ["./"]) adds nothing: the stored path is the bucket directory
    itself. *)
Theorem set_file_path_empty_file_name
    (self : DataFileMeta) (table_path : Pathlib.Path)
    (partition : BinaryRow) (bucket : Z) :
  Py.startswith Pathlib.sep (file_name self) = false ->
  Pathlib.tail (Pathlib.of_string (file_name self)) = [] ->
  file_path (set_file_path self table_path partition bucket)
  = Some (Pathlib.to_str (bucket_directory table_path partition bucket)).
Proof.
  intros H Hnil. rewrite set_file_path_stores.
  rewrite resolved_relative_string by exact H.
  unfold Pathlib.of_string in Hnil. rewrite Hnil. simpl.
  now rewrite append_empty_r.
Qed.

Lemma set_file_path_empty_file_name_witness :
  file_path (set_file_path (file_named "./")
               (Pathlib.of_string "/warehouse/t1")
               (mkBinaryRow [("dt", Py.VStr "2024-01-01")]) 3)
  = Some (Pathlib.to_str
            (bucket_directory (Pathlib.of_string "/warehouse/t1")
               (mkBinaryRow [("dt", Py.VStr "2024-01-01")]) 3)).
Proof.
  apply (set_file_path_empty_file_name (file_named "./")); reflexivity.
Defined.

(** X5: the stored path is never the empty string. *)
Theorem set_file_path_never_empty
    (self : DataFileMeta) (table_path : Pathlib.Path)
    (partition : BinaryRow) (bucket : Z) :
  file_path (set_file_path self table_path partition bucket) <> Some "".
Proof.
  rewrite set_file_path_stores. intros H. injection H as H.
  destruct (Py.startswith Pathlib.sep (file_name self)) eqn:E.
  - rewrite build_path_bucket_directory, (truediv_absolute _ _ E) in H.
    revert H. apply to_str_rooted, parse_absolute_root, E.
  - rewrite (resolved_relative_string _ _ _ _ E) in H.
    apply append_eq_nil in H as [H _].
    revert H. apply bucket_directory_str_nonempty.
Qed.

(** X6: a later call overwrites the path of an earlier one: the result is
    that of the later call alone, and repeating a call changes nothing. *)
Theorem set_file_path_last_call_wins
    (self : DataFileMeta)
    (table_path table_path' : Pathlib.Path)
    (partition partition' : BinaryRow) (bucket bucket' : Z) :
  set_file_path (set_file_path self table_path partition bucket)
                table_path' partition' bucket'
  = set_file_path self table_path' partition' bucket'
  /\ set_file_path (set_file_path self table_path partition bucket)
                   table_path partition bucket
     = set_file_path self table_path partition bucket.
Proof.
  split; reflexivity.
Qed.

(** X7: a negative bucket is accepted and rendered with its sign, so the
    segment has two hyphens: ["bucket--"] and the digits of the absolute
    value. *)
Theorem bucket_segment_negative (bucket : Z) :
  (bucket < 0)%Z ->
  bucket_segment bucket = "bucket--" ++ Py.str_int (- bucket).
Proof.
  destruct bucket as [|p|p]; intros H; try lia. reflexivity.
Qed.

Lemma bucket_segment_negative_witness :
  bucket_segment (-7) = "bucket--" ++ Py.str_int (- (-7)).
Proof.
  apply bucket_segment_negative. lia.
Defined.

(* ================================================================== *)
(** * Path resolution: buckets and partitions *)

Section PartitionFacts.

Import Pathlib.

Lemma bucket_segment_injective (b1 b2 : Z) :
  bucket_segment b1 = bucket_segment b2 -> b1 = b2.
Proof.
  unfold bucket_segment. intros H.
  apply append_inv_head in H. now apply str_int_injective.
Qed.

Lemma bucket_segment_slash_free (b : Z) :
  Py.contains "/" (bucket_segment b) = false.
Proof.
  unfold bucket_segment. now rewrite contains_append, str_int_no_slash.
Qed.

Lemma bucket_segment_no_equals (b : Z) :
  Py.contains "=" (bucket_segment b) = false.
Proof.
  unfold bucket_segment. now rewrite contains_append, str_int_no_equals.
Qed.

Lemma partition_segment_has_equals (item : string * Py.value) :
  Py.contains "=" (partition_segment item) = true.
Proof.
  unfold partition_segment. rewrite contains_append. simpl.
  apply orb_true_r.
Qed.

Lemma partition_segment_relative (item : string * Py.value) :
  Py.startswith sep (partition_segment item) = Py.startswith sep (fst item).
Proof.
  unfold partition_segment. destruct (fst item); reflexivity.
Qed.

Lemma equals_keep_part (s : string) :
  Py.contains "=" s = true -> keep_part s = true.
Proof.
  unfold keep_part. intros H.
  destruct (String.eqb_spec s "") as [->|_]; [discriminate|].
  destruct (String.eqb_spec s ".") as [->|_]; [discriminate|].
  reflexivity.
Qed.

Lemma slash_free_segment_normal (item : string * Py.value) :
  slash_free (partition_segment item) = true ->
  Py.split sep (partition_segment item) = [partition_segment item]
  /\ normal_segment (partition_segment item) = true.
Proof.
  unfold slash_free. intros H. apply negb_true_iff in H.
  pose proof (split_no_sep sep _ H) as Hs. split; [exact Hs|].
  unfold normal_segment. rewrite Hs. simpl.
  now rewrite (equals_keep_part _ (partition_segment_has_equals item)).
Qed.

(** With slash-free segments the loop appends one component per
    partition column. *)
Lemma loop_result_slash_free (items : list (string * Py.value)) :
  forall p : Path,
    forallb (fun item => slash_free (partition_segment item)) items = true ->
    loop_result p items
    = mkPath (root p) (tail p ++ map partition_segment items).
Proof.
  unfold loop_result.
  induction items as [|item items IH]; intros p H; simpl in *.
  - rewrite app_nil_r. now destruct p.
  - apply andb_true_iff in H as [Hi Hr].
    destruct (slash_free_segment_normal item Hi) as [Hs Hn].
    rewrite (IH _ Hr), (truediv_normal_segment p _ Hn), Hs. simpl.
    now rewrite <- app_assoc.
Qed.

(** Where the partition segments end and the bucket segment stands is
    read off the components: segments hold an equals sign, the bucket
    segment does not. *)
Lemma boundary_unique (s1 : list string) :
  forall (s2 : list string) (b1 b2 : string) (t1 t2 : list string),
    Forall (fun c => Py.contains "=" c = true) s1 ->
    Forall (fun c => Py.contains "=" c = true) s2 ->
    Py.contains "=" b1 = false -> Py.contains "=" b2 = false ->
    (s1 ++ b1 :: t1 = s2 ++ b2 :: t2)%list ->
    s1 = s2 /\ b1 = b2 /\ t1 = t2.
Proof.
  induction s1 as [|x s1 IH]; intros [|y s2] b1 b2 t1 t2 F1 F2 B1 B2 H;
    simpl in H.
  - injection H as -> ->. now repeat split.
  - injection H as -> _. inversion F2; congruence.
  - injection H as -> _. inversion F1; congruence.
  - injection H as -> H.
    inversion F1; inversion F2; subst.
    destruct (IH s2 b1 b2 t1 t2) as (-> & -> & ->); auto.
Qed.

(** The string of a bucket directory is a prefix that does not depend on
    the bucket, then the bucket segment. *)
Lemma bucket_directory_str_prefix (table_path : Path) (partition : BinaryRow) :
  exists pre : string,
    forall bucket : Z,
      to_str (bucket_directory table_path partition bucket)
      = pre ++ bucket_segment bucket.
Proof.
  pose (r := root (loop_result table_path (to_dict partition))).
  destruct (tail (loop_result table_path (to_dict partition)))
    as [|x t] eqn:Et.
  - exists r. intros bucket.
    rewrite bucket_directory_components_eq, Et.
    rewrite to_str_components by discriminate. reflexivity.
  - exists (r ++ Py.join "/" (x :: t) ++ "/"). intros bucket.
    rewrite bucket_directory_components_eq, Et.
    rewrite to_str_components by discriminate.
    rewrite join_app_slashed by discriminate.
    change (slashed [bucket_segment bucket])
      with ("/" ++ bucket_segment bucket ++ "").
    subst r. now rewrite append_empty_r, !append_assoc.
Qed.

End PartitionFacts.

(** X8: for relative file names under the same table root and partition,
    records resolved in different buckets get different paths. *)
Theorem set_file_path_bucket_injective
    (m1 m2 : DataFileMeta) (table_path : Pathlib.Path)
    (partition : BinaryRow) (b1 b2 : Z) :
  Py.startswith Pathlib.sep (file_name m1) = false ->
  Py.startswith Pathlib.sep (file_name m2) = false ->
  b1 <> b2 ->
  file_path (set_file_path m1 table_path partition b1)
  <> file_path (set_file_path m2 table_path partition b2).
Proof.
  intros H1 H2 Hne H. apply Hne. clear Hne.
  rewrite !set_file_path_stores in H. injection H as H.
  rewrite !resolved_relative_string in H by assumption.
  destruct (bucket_directory_str_prefix table_path partition) as [pre Hpre].
  rewrite !Hpre, !append_assoc in H. apply append_inv_head in H.
  apply bucket_segment_injective.
  eapply separated_prefix_unique in H; [apply H | | | |];
    auto using bucket_segment_slash_free, slashed_led.
Qed.

Lemma set_file_path_bucket_injective_witness :
  file_path (set_file_path (file_named "data-1.parquet")
               (Pathlib.of_string "/warehouse/t1") (mkBinaryRow []) 3)
  <> file_path (set_file_path (file_named "data-1.parquet")
               (Pathlib.of_string "/warehouse/t1") (mkBinaryRow []) 4).
Proof.
  apply (set_file_path_bucket_injective (file_named "data-1.parquet")
           (file_named "data-1.parquet")
           (Pathlib.of_string "/warehouse/t1") (mkBinaryRow []) 3 4).
  - reflexivity.
  - reflexivity.
  - lia.
Defined.

Section PartitionCollisions.

Import Pathlib.

Lemma slash_free_segments (items : list (string * Py.value)) :
  forallb (fun item => slash_free (partition_segment item)) items = true ->
  Forall (fun c => Py.contains "/" c = false) (map partition_segment items).
Proof.
  intros H. apply Forall_forall. intros c Hc.
  apply in_map_iff in Hc as (item & <- & Hin).
  rewrite forallb_forall in H. specialize (H item Hin).
  unfold slash_free in H. now apply negb_true_iff in H.
Qed.

Lemma segments_have_equals (items : list (string * Py.value)) :
  Forall (fun c => Py.contains "=" c = true) (map partition_segment items).
Proof.
  apply Forall_forall. intros c Hc.
  apply in_map_iff in Hc as (item & <- & _).
  apply partition_segment_has_equals.
Qed.

(** The built path for slash-free partition segments and a relative file
    name, component by component. *)
Lemma build_path_slash_free (fname : string) (table_path : Path)
    (partition : BinaryRow) (bucket : Z) :
  forallb (fun item => slash_free (partition_segment item))
          (to_dict partition) = true ->
  Py.startswith sep fname = false ->
  build_path fname table_path partition bucket
  = mkPath (root table_path)
      (tail table_path
       ++ (map partition_segment (to_dict partition)
           ++ bucket_segment bucket :: tail (parse_path fname))).
Proof.
  intros Hs Hf. rewrite (build_path_relative _ _ _ _ Hf).
  rewrite (loop_result_slash_free _ _ Hs). simpl.
  now rewrite <- app_assoc.
Qed.

(** Joining a relative, non-empty key that holds a slash is joining its
    two sides one after the other. *)
Lemma truediv_nested (p : Path) (a b : string) :
  a <> "" -> Py.startswith sep a = false -> Py.startswith sep b = false ->
  p // (a ++ "/" ++ b) = p // a // b.
Proof.
  intros Ha Hra Hrb.
  assert (Hab : Py.startswith sep (a ++ "/" ++ b) = false)
    by (destruct a; [congruence | exact Hra]).
  rewrite (truediv_relative _ _ Hab), (truediv_relative _ _ Hra),
          (truediv_relative _ _ Hrb).
  rewrite (parse_relative _ Hab), (parse_relative _ Hra),
          (parse_relative _ Hrb). simpl.
  change ("/" ++ b) with (String sep b).
  now rewrite split_app_sep, filter_app, app_assoc.
Qed.

End PartitionCollisions.

(** X9: for partition segments without a slash and relative file names,
    two calls under one table root store the same path exactly when the
    partitions give the same segments in the same order, the buckets are
    equal and the file names have the same components. *)
Theorem set_file_path_equal_iff
    (m1 m2 : DataFileMeta) (table_path : Pathlib.Path)
    (p1 p2 : BinaryRow) (b1 b2 : Z) :
  forallb (fun item => slash_free (partition_segment item)) (to_dict p1) = true ->
  forallb (fun item => slash_free (partition_segment item)) (to_dict p2) = true ->
  Py.startswith Pathlib.sep (file_name m1) = false ->
  Py.startswith Pathlib.sep (file_name m2) = false ->
  (file_path (set_file_path m1 table_path p1 b1)
   = file_path (set_file_path m2 table_path p2 b2)
   <-> map partition_segment (to_dict p1) = map partition_segment (to_dict p2)
       /\ b1 = b2
       /\ Pathlib.tail (Pathlib.of_string (file_name m1))
          = Pathlib.tail (Pathlib.of_string (file_name m2))).
Proof.
  intros S1 S2 R1 R2. rewrite !set_file_path_stores.
  rewrite !build_path_slash_free by assumption.
  unfold Pathlib.of_string. split.
  - intros H. injection H as H.
    rewrite !to_str_components in H
      by (intros E; apply app_eq_nil in E as [_ E];
          apply app_eq_nil in E as [_ E]; discriminate).
    apply append_inv_head in H.
    apply join_suffix_injective in H.
    + apply boundary_unique in H;
        auto using segments_have_equals, bucket_segment_no_equals.
      destruct H as (Hs & Hb & Ht).
      repeat split; auto using bucket_segment_injective.
    + intros E; apply app_eq_nil in E as [_ E]; discriminate.
    + intros E; apply app_eq_nil in E as [_ E]; discriminate.
    + apply Forall_app. split; [now apply slash_free_segments|].
      constructor; [apply bucket_segment_slash_free | apply parse_tail_slash_free].
    + apply Forall_app. split; [now apply slash_free_segments|].
      constructor; [apply bucket_segment_slash_free | apply parse_tail_slash_free].
  - intros (-> & -> & ->). reflexivity.
Qed.

Lemma set_file_path_equal_iff_witness :
  file_path (set_file_path (file_named "data-1.parquet")
               (Pathlib.of_string "/warehouse/t1")
               (mkBinaryRow [("dt", Py.VStr "2024-01-01"); ("hr", Py.VInt 7)]) 3)
  = file_path (set_file_path (file_named "data-1.parquet")
               (Pathlib.of_string "/warehouse/t1")
               (mkBinaryRow [("hr", Py.VInt 7); ("dt", Py.VStr "2024-01-01")]) 3)
  <-> map partition_segment [("dt", Py.VStr "2024-01-01"); ("hr", Py.VInt 7)]
      = map partition_segment [("hr", Py.VInt 7); ("dt", Py.VStr "2024-01-01")]
      /\ 3%Z = 3%Z
      /\ Pathlib.tail (Pathlib.of_string "data-1.parquet")
         = Pathlib.tail (Pathlib.of_string "data-1.parquet").
Proof.
  apply (set_file_path_equal_iff (file_named "data-1.parquet")
           (file_named "data-1.parquet") (Pathlib.of_string "/warehouse/t1")
           (mkBinaryRow [("dt", Py.VStr "2024-01-01"); ("hr", Py.VInt 7)])
           (mkBinaryRow [("hr", Py.VInt 7); ("dt", Py.VStr "2024-01-01")])
           3 3); reflexivity.
Defined.

(** X10: a partition column whose name begins with a slash restarts the
    path: the table root and the columns before it leave no trace in the
    stored path. *)
Theorem set_file_path_absolute_partition_column
    (self : DataFileMeta) (table_path table_path' : Pathlib.Path)
    (before after : list (string * Py.value)) (item : string * Py.value)
    (bucket : Z) :
  Py.startswith Pathlib.sep (fst item) = true ->
  file_path (set_file_path self table_path
               (mkBinaryRow (before ++ item :: after)) bucket)
  = file_path (set_file_path self table_path'
               (mkBinaryRow (item :: after)) bucket).
Proof.
  intros H. rewrite !set_file_path_stores. unfold build_path. simpl to_dict.
  rewrite fold_left_app. simpl fold_left.
  rewrite <- partition_segment_relative in H.
  now rewrite !(truediv_absolute _ _ H).
Qed.

Lemma set_file_path_absolute_partition_column_witness :
  file_path (set_file_path (file_named "data-1.parquet")
               (Pathlib.of_string "/warehouse/t1")
               (mkBinaryRow ([("dt", Py.VStr "2024-01-01")]
                             ++ ("/mnt", Py.VStr "x") :: [("hr", Py.VInt 7)]))
               3)
  = file_path (set_file_path (file_named "data-1.parquet")
               (Pathlib.of_string "elsewhere")
               (mkBinaryRow (("/mnt", Py.VStr "x") :: [("hr", Py.VInt 7)]))
               3).
Proof.
  apply (set_file_path_absolute_partition_column
           (file_named "data-1.parquet")
           (Pathlib.of_string "/warehouse/t1") (Pathlib.of_string "elsewhere")
           [("dt", Py.VStr "2024-01-01")] [("hr", Py.VInt 7)]
           ("/mnt", Py.VStr "x") 3).
  reflexivity.
Defined.

(** X11: a slash inside a partition value opens a new directory level: a
    column [n] with the string value [v/n2=v2] resolves to the same path
    as the two columns [n = v] and [n2 = v2], when neither column name
    begins with a slash. *)
Theorem set_file_path_value_slash_nests
    (self : DataFileMeta) (table_path : Pathlib.Path)
    (before after : list (string * Py.value))
    (n v n2 : string) (v2 : Py.value) (bucket : Z) :
  Py.startswith Pathlib.sep n = false ->
  Py.startswith Pathlib.sep n2 = false ->
  file_path (set_file_path self table_path
               (mkBinaryRow
                  (before
                   ++ (n, Py.VStr (v ++ "/" ++ n2 ++ "=" ++ Py.str v2)) :: after))
               bucket)
  = file_path (set_file_path self table_path
               (mkBinaryRow (before ++ (n, Py.VStr v) :: (n2, v2) :: after))
               bucket).
Proof.
  intros Hn Hn2. rewrite !set_file_path_stores. unfold build_path.
  cbn [to_dict]. rewrite !fold_left_app. cbn [fold_left].
  set (p := fold_left _ before table_path).
  assert (E : p // partition_segment
                     (n, Py.VStr (v ++ "/" ++ n2 ++ "=" ++ Py.str v2))
              = p // partition_segment (n, Py.VStr v)
                  // partition_segment (n2, v2)).
  { unfold partition_segment; simpl fst; simpl snd; simpl Py.str.
    rewrite <- truediv_nested.
    - now rewrite !append_assoc.
    - destruct n; discriminate.
    - destruct n; [reflexivity | exact Hn].
    - destruct n2; [reflexivity | exact Hn2]. }
  now rewrite E.
Qed.

Lemma set_file_path_value_slash_nests_witness :
  file_path (set_file_path (file_named "data-1.parquet")
               (Pathlib.of_string "/warehouse/t1")
               (mkBinaryRow
                  ([] ++ ("dt", Py.VStr ("2024" ++ "/" ++ "hr" ++ "="
                                          ++ Py.str (Py.VInt 7))) :: []))
               3)
  = file_path (set_file_path (file_named "data-1.parquet")
               (Pathlib.of_string "/warehouse/t1")
               (mkBinaryRow ([] ++ ("dt", Py.VStr "2024") :: ("hr", Py.VInt 7) :: []))
               3).
Proof.
  apply (set_file_path_value_slash_nests (file_named "data-1.parquet")
           (Pathlib.of_string "/warehouse/t1") [] [] "dt" "2024" "hr"
           (Py.VInt 7) 3); reflexivity.
Defined.

(* ================================================================== *)
(** * The descriptor against the dataclass *)

(** X12: the durable field names are pairwise distinct.  In the order of
    the dataclass's attributes each field's name is exactly an underscore
    and its attribute in upper case, except that [embedded_index] is
    stored as [_EMBEDDED_FILE_INDEX]; [file_path], the last attribute, is
    the only one without a field. *)
Theorem schema_follows_dataclass :
  NoDup (map name (fields DATA_FILE_META_SCHEMA))
  /\ map name (fields DATA_FILE_META_SCHEMA)
     = map (fun a => durable_name (if String.eqb a "embedded_index"
                                   then "embedded_file_index" else a))
           (firstn 18 DataFileMeta_attributes)
  /\ skipn 18 DataFileMeta_attributes = ["file_path"].
Proof.
  split; [|split; reflexivity].
  simpl. repeat (constructor; [simpl; intuition discriminate|]).
  constructor.
Qed.
